(** * nuturtle_description/launch/load_one.launch.py

    [generate_launch_description] builds a [LaunchDescription]: a list of
    launch entities (three argument declarations, one derived launch
    configuration, four candidate nodes).  The launch service then visits
    the entities in order against a context holding the launch
    configurations (a string dictionary, initialised with the arguments
    given on the command line).

    The launch file is embedded as the data it constructs; the launch
    library's visiting of that data is written as an interpreter with
    explicit context passing and an exception result.  The file system,
    the package index, the child process run by [Command] and Python's
    float parsing stay parameters (record [World]). *)

From Stdlib Require Import String Ascii ZArith.
From stdpp Require Import base option list gmap strings.

Local Open Scope string_scope.
Local Open Scope list_scope.

(** ** Python string helpers *)

Module pystr.

(** [str.lower] on the ASCII range. *)
Definition lower_ascii (c : ascii) : ascii :=
  let n := nat_of_ascii c in
  if (65 <=? n)%nat && (n <=? 90)%nat then ascii_of_nat (n + 32) else c.

Fixpoint lower (s : string) : string :=
  match s with
  | EmptyString => EmptyString
  | String c r => String (lower_ascii c) (lower r)
  end.

(** The ASCII characters [str.strip] removes: space, \t \n \v \f \r and
    the separators 28 to 31. *)
Definition is_space (c : ascii) : bool :=
  let n := nat_of_ascii c in
  (n =? 32)%nat || ((9 <=? n)%nat && (n <=? 13)%nat)
  || ((28 <=? n)%nat && (n <=? 31)%nat).

Fixpoint lstrip (s : string) : string :=
  match s with
  | String c r => if is_space c then lstrip r else s
  | EmptyString => EmptyString
  end.

Fixpoint rstrip (s : string) : string :=
  match s with
  | EmptyString => EmptyString
  | String c r =>
      match rstrip r with
      | EmptyString => if is_space c then EmptyString else String c EmptyString
      | r' => String c r'
      end
  end.

Definition strip (s : string) : string := rstrip (lstrip s).

(** [s.startswith(pre)]. *)
Fixpoint startswith (pre s : string) : bool :=
  match pre with
  | EmptyString => true
  | String c pre' =>
      match s with
      | String d s' => Ascii.eqb d c && startswith pre' s'
      | EmptyString => false
      end
  end.

(** [s.endswith(c)] for a one-character [c]. *)
Fixpoint endswith (c : ascii) (s : string) : bool :=
  match s with
  | EmptyString => false
  | String d EmptyString => Ascii.eqb d c
  | String _ r => endswith c r
  end.

(** [x in xs] for a list of strings. *)
Definition mem (x : string) (xs : list string) : bool :=
  existsb (String.eqb x) xs.

(** An ASCII letter other than n and N.  Every spelling Python's [float]
    accepts has a digit or is one of inf, infinity, nan (in any case),
    so a string of such letters alone is never a float literal. *)
Definition plain_letter (c : ascii) : bool :=
  let n := nat_of_ascii (lower_ascii c) in
  (97 <=? n)%nat && (n <=? 122)%nat && negb (n =? 110)%nat.

Fixpoint plain_word (s : string) : bool :=
  match s with
  | EmptyString => true
  | String c r => plain_letter c && plain_word r
  end.

End pystr.

(** ** os.path.join (posixpath) *)

Module posixpath.

(** One round of the loop of [posixpath.join]:
    [if b.startswith(sep): path = b
     elif not path or path.endswith(sep): path += b
     else: path += sep + b]. *)
Definition join_step (path b : string) : string :=
  if pystr.startswith "/" b then b
  else if String.eqb path "" || pystr.endswith "/" path then path ++ b
  else path ++ "/" ++ b.

Definition join (a : string) (p : list string) : string :=
  fold_left join_step p a.

End posixpath.

(** ** The outside world *)

(** What [subprocess.run] hands back to [Command]. *)
Record CompletedProcess := {
  returncode : Z;
  stdout : string;
  stderr : string
}.

Record World := {
  (** ament's package index: the install prefix of a package, if found. *)
  get_package_prefix : string -> option string;
  (** Running a command line; [None] when the program cannot be started. *)
  subprocess_run : string -> option CompletedProcess;
  (** Whether Python's [float(s)] succeeds. *)
  str_is_float : string -> bool;
  (** [math.isclose(float(a), float(b))]. *)
  float_isclose : string -> string -> bool
}.

(** The one fact about Python's [float] the launch file depends on: it
    rejects a word of letters without n (so gui, jsp and true are not
    floats). *)
Definition float_syntax (w : World) : Prop :=
  forall s, pystr.plain_word s = true -> str_is_float w s = false.

(** ** Launch data *)

#[warnings="-register-all"] Inductive Substitution :=
| TextSubstitution (text : string)
| LaunchConfiguration (variable_name : string)
| FindPackageShare (package : string)
| PathJoinSubstitution (substitutions : list Substitution)
| EqualsSubstitution (left right : Substitution)
| Command (command : list Substitution).

(** A plain Python string in a substitution position is a text substitution. *)
Coercion TextSubstitution : string >-> Substitution.

Inductive Condition :=
| IfCondition (predicate_expression : Substitution).

Record NodeAction := {
  node_package : string;
  node_executable : string;
  node_namespace : Substitution;
  node_parameters : list (list (string * Substitution));
  node_arguments : list Substitution;
  node_condition : option Condition
}.

Inductive Entity :=
| DeclareLaunchArgument (name : string) (default_value : option string)
    (description : string) (choices : option (list string))
| SetLaunchConfiguration (name : string) (value : list Substitution)
| Node (n : NodeAction).

Definition LaunchDescription := list Entity.

(** The exceptions the launch library raises while visiting. *)
Inductive Exception :=
| ArgumentRequired (name : string)
| ArgumentNotInChoices (name value : string) (choices : list string)
| UnknownLaunchConfiguration (name : string)
| PackageNotFoundError (package : string)
| CommandFailed (command : string)
| EmptyPathJoin
| InvalidConditionExpressionError (expression : string).

Inductive result (A : Type) :=
| Ok (a : A)
| Raise (e : Exception).
Arguments Ok {A} a.
Arguments Raise {A} e.

#[global] Instance result_ret : MRet result := fun A a => Ok a.

#[global] Instance result_bind : MBind result := fun A B k r =>
  match r with
  | Ok a => k a
  | Raise e => Raise e
  end.

(** What a node that is started is started with: its package and
    executable as named in the launch file, and its namespace, parameters
    and arguments as the text their substitutions perform to.  Finding
    the executable inside its package, making the namespace absolute and
    reading parameter text as YAML are left to launch_ros. *)
Record ProcessSpec := {
  package_of : string;
  executable : string;
  namespace : string;
  parameters : list (list (string * string));
  arguments : list string
}.

(** ** Performing substitutions *)

Section Visit.

Variable w : World.

(** [_str_is_bool] of equals_substitution.py. *)
Definition str_is_bool (s : string) : bool :=
  pystr.mem (pystr.lower s) ["true"; "false"; "1"; "0"].

Definition str_to_bool (s : string) : bool :=
  pystr.mem (pystr.lower s) ["true"; "1"].

Definition py_bool_str (b : bool) : string :=
  if b then "true" else "false".

(** [EqualsSubstitution.perform] on the two performed sides: booleans
    compare as booleans, floats by closeness, anything else as text. *)
Definition equals (l r : string) : string :=
  if str_is_bool l && str_is_bool r then
    py_bool_str (Bool.eqb (str_to_bool l) (str_to_bool r))
  else if str_is_float w l && str_is_float w r then
    py_bool_str (float_isclose w l r)
  else py_bool_str (String.eqb l r).

(** [Command.perform] once the command line is known: a non-zero exit
    code or any output on stderr fails the substitution. *)
Definition run_command (cmd : string) : result string :=
  match subprocess_run w cmd with
  | None => Raise (CommandFailed cmd)
  | Some p =>
      if negb (returncode p =? 0)%Z then Raise (CommandFailed cmd)
      else if negb (String.eqb (stderr p) "") then Raise (CommandFailed cmd)
      else Ok (stdout p)
  end.

Definition find_package_share (pkg : string) : result string :=
  match get_package_prefix w pkg with
  | Some prefix => Ok (posixpath.join prefix ["share"; pkg])
  | None => Raise (PackageNotFoundError pkg)
  end.

Definition path_join (parts : list string) : result string :=
  match parts with
  | [] => Raise EmptyPathJoin
  | a :: p => Ok (posixpath.join a p)
  end.

Fixpoint perform (ctx : gmap string string) (s : Substitution) : result string :=
  let perform_each :=
    fix each (l : list Substitution) : result (list string) :=
      match l with
      | [] => Ok []
      | x :: r => v ← perform ctx x; vs ← each r; Ok (v :: vs)
      end in
  match s with
  | TextSubstitution text => Ok text
  | LaunchConfiguration name =>
      match ctx !! name with
      | Some v => Ok v
      | None => Raise (UnknownLaunchConfiguration name)
      end
  | FindPackageShare pkg => find_package_share pkg
  | PathJoinSubstitution subs => parts ← perform_each subs; path_join parts
  | EqualsSubstitution l r =>
      lv ← perform ctx l; rv ← perform ctx r; Ok (equals lv rv)
  | Command cmd => parts ← perform_each cmd; run_command (String.concat "" parts)
  end.

(** The same on a list, as [perform] does for its list arguments. *)
Fixpoint perform_each (ctx : gmap string string) (l : list Substitution)
  : result (list string) :=
  match l with
  | [] => Ok []
  | x :: r => v ← perform ctx x; vs ← perform_each ctx r; Ok (v :: vs)
  end.

(** [perform_substitutions]: the performed pieces joined without separator. *)
Definition perform_substitutions (ctx : gmap string string)
  (subs : list Substitution) : result string :=
  parts ← perform_each ctx subs; Ok (String.concat "" parts).

(** ** Conditions *)

(** [evaluate_condition_expression]: the expanded text, stripped and
    lowered, is true for true/1, false for false/0, an error otherwise. *)
Definition evaluate_condition_expression (ctx : gmap string string)
  (e : Substitution) : result bool :=
  s ← perform ctx e;
  let t := pystr.lower (pystr.strip s) in
  if pystr.mem t ["true"; "1"] then Ok true
  else if pystr.mem t ["false"; "0"] then Ok false
  else Raise (InvalidConditionExpressionError t).

(** An action without condition is always visited. *)
Definition evaluate (ctx : gmap string string) (c : option Condition)
  : result bool :=
  match c with
  | None => Ok true
  | Some (IfCondition e) => evaluate_condition_expression ctx e
  end.

(** ** Executing the entities *)

Fixpoint evaluate_parameter_dict (ctx : gmap string string)
  (d : list (string * Substitution)) : result (list (string * string)) :=
  match d with
  | [] => Ok []
  | (k, v) :: r =>
      s ← perform ctx v; rest ← evaluate_parameter_dict ctx r; Ok ((k, s) :: rest)
  end.

Fixpoint evaluate_parameters (ctx : gmap string string)
  (ps : list (list (string * Substitution)))
  : result (list (list (string * string))) :=
  match ps with
  | [] => Ok []
  | d :: r =>
      d' ← evaluate_parameter_dict ctx d; r' ← evaluate_parameters ctx r;
      Ok (d' :: r')
  end.

(** [Node.execute]: the namespace, then the parameters, then the command
    line arguments are expanded against the context. *)
Definition execute_node (ctx : gmap string string) (n : NodeAction)
  : result ProcessSpec :=
  ns ← perform ctx (node_namespace n);
  params ← evaluate_parameters ctx (node_parameters n);
  args ← perform_each ctx (node_arguments n);
  Ok {| package_of := node_package n;
        executable := node_executable n;
        namespace := ns;
        parameters := params;
        arguments := args |}.

(** [DeclareLaunchArgument.execute]. *)
Definition declare_launch_argument (ctx : gmap string string) (name : string)
  (default_value : option string) (choices : option (list string))
  : result (gmap string string) :=
  ctx' ← match ctx !! name with
         | Some _ => Ok ctx
         | None =>
             match default_value with
             | Some d => Ok (<[name := d]> ctx)
             | None => Raise (ArgumentRequired name)
             end
         end;
  match choices with
  | None => Ok ctx'
  | Some cs =>
      match ctx' !! name with
      | Some value =>
          if pystr.mem value cs then Ok ctx'
          else Raise (ArgumentNotInChoices name value cs)
      | None => Raise (UnknownLaunchConfiguration name)
      end
  end.

(** Visiting one entity: the new context and the processes it starts. *)
Definition visit (ctx : gmap string string) (e : Entity)
  : result (gmap string string * list ProcessSpec) :=
  match e with
  | DeclareLaunchArgument name default_value _ choices =>
      ctx' ← declare_launch_argument ctx name default_value choices;
      Ok (ctx', [])
  | SetLaunchConfiguration name value =>
      v ← perform_substitutions ctx value; Ok (<[name := v]> ctx, [])
  | Node n =>
      included ← evaluate ctx (node_condition n);
      if included : bool then p ← execute_node ctx n; Ok (ctx, [p])
      else Ok (ctx, [])
  end.

(** The state of a launch when visiting stops: at the end of the
    description, or at the first exception. *)
Record Outcome := {
  configurations : gmap string string;
  processes : list ProcessSpec;
  raised : option Exception
}.

Fixpoint visit_all (ctx : gmap string string) (started : list ProcessSpec)
  (es : LaunchDescription) : Outcome :=
  match es with
  | [] => {| configurations := ctx; processes := started; raised := None |}
  | e :: rest =>
      match visit ctx e with
      | Ok (ctx', ps) => visit_all ctx' (started ++ ps) rest
      | Raise x =>
          {| configurations := ctx; processes := started; raised := Some x |}
      end
  end.

End Visit.

(** ** The launch file *)

(** List literals take their element type from where they stand, so that
    a plain string among substitutions is read as one. *)
#[local] Arguments cons {A} & _ _.

Definition color_choices : list string :=
  ["red"; "green"; "blue"; "purple"; "cyan"; "magenta"; "yellow"; ""].

Definition joint_state_publisher_gui : NodeAction :=
  {| node_package := "joint_state_publisher_gui";
     node_namespace := LaunchConfiguration "color";
     node_executable := "joint_state_publisher_gui";
     node_parameters := [];
     node_arguments := [];
     node_condition :=
       Some (IfCondition (EqualsSubstitution (LaunchConfiguration "use_jsp") "gui")) |}.

Definition joint_state_publisher : NodeAction :=
  {| node_package := "joint_state_publisher";
     node_namespace := LaunchConfiguration "color";
     node_executable := "joint_state_publisher";
     node_parameters := [];
     node_arguments := [];
     node_condition :=
       Some (IfCondition (EqualsSubstitution (LaunchConfiguration "use_jsp") "jsp")) |}.

Definition robot_state_publisher : NodeAction :=
  {| node_package := "robot_state_publisher";
     node_executable := "robot_state_publisher";
     node_namespace := LaunchConfiguration "color";
     node_parameters :=
       [ [ ("frame_prefix",
            PathJoinSubstitution [LaunchConfiguration "color"; ""]);
           ("robot_description",
            Command
              [ TextSubstitution "xacro ";
                PathJoinSubstitution
                  [ FindPackageShare "nuturtle_description";
                    "urdf";
                    "turtlebot3_burger.urdf.xacro" ];
                " color:=";
                LaunchConfiguration "color" ]) ] ];
     node_arguments := [];
     node_condition := None |}.

Definition rviz2 : NodeAction :=
  {| node_package := "rviz2";
     node_executable := "rviz2";
     node_namespace := LaunchConfiguration "color";
     node_parameters := [];
     node_arguments :=
       [ "-d";
         LaunchConfiguration "rviz_color";
         PathJoinSubstitution
           [ FindPackageShare "nuturtle_description";
             LaunchConfiguration "rviz_color" ] ];
     node_condition :=
       Some (IfCondition (EqualsSubstitution (LaunchConfiguration "use_rviz") "true")) |}.

Definition generate_launch_description : LaunchDescription :=
  [ DeclareLaunchArgument "use_jsp" (Some "gui")
      "gui: use jsp_gui, jsp: use joint_state_publisher,                      none: no joint states published"
      None;
    DeclareLaunchArgument "use_rviz" (Some "true")
      "true (default): start rviz, otherwise don't start rviz"
      None;
    DeclareLaunchArgument "color" (Some "purple")
      "Color of nuturtle's body"
      (Some color_choices);
    SetLaunchConfiguration "rviz_color"
      [ FindPackageShare "nuturtle_description";
        TextSubstitution "/config/basic_";
        LaunchConfiguration "color";
        TextSubstitution ".rviz" ];
    Node joint_state_publisher_gui;
    Node joint_state_publisher;
    Node robot_state_publisher;
    Node rviz2 ].

(** Launching the file with the given command line arguments. *)
Definition launch (w : World) (args : gmap string string) : Outcome :=
  visit_all w args [] generate_launch_description.

(** ** A sample installation *)

Definition xacro_output : string := "<robot name='burger'/>".

(** A stand-in for Python's [float]: unsigned decimal digits only. *)
Definition is_digit (c : ascii) : bool :=
  let n := nat_of_ascii c in (48 <=? n)%nat && (n <=? 57)%nat.

Fixpoint all_digits (s : string) : bool :=
  match s with
  | EmptyString => true
  | String c r => is_digit c && all_digits r
  end.

Definition decimal_literal (s : string) : bool :=
  negb (String.eqb s "") && all_digits s.

Definition sample_world : World :=
  {| get_package_prefix := fun pkg => Some (String.append "/opt/ws/install/" pkg);
     subprocess_run := fun cmd =>
       if pystr.startswith "xacro " cmd
       then Some {| returncode := 0; stdout := xacro_output; stderr := "" |}
       else None;
     str_is_float := decimal_literal;
     float_isclose := String.eqb |}.

(** ** What a launch resolves its arguments to *)

(** [dict.setdefault]: what declaring an argument with a default does to
    the launch configurations. *)
Definition setdefault (name d : string) (ctx : gmap string string)
  : gmap string string :=
  match ctx !! name with
  | Some _ => ctx
  | None => <[name := d]> ctx
  end.

Definition use_jsp_of (args : gmap string string) : string :=
  default "gui" (args !! "use_jsp").

Definition use_rviz_of (args : gmap string string) : string :=
  default "true" (args !! "use_rviz").

Definition color_of (args : gmap string string) : string :=
  default "purple" (args !! "color").

(** The launch configurations once the three arguments are declared. *)
Definition declared (args : gmap string string) : gmap string string :=
  setdefault "color" "purple"
    (setdefault "use_rviz" "true" (setdefault "use_jsp" "gui" args)).

(** The share directory of this package under an install prefix. *)
Definition share_of (prefix : string) : string :=
  posixpath.join prefix ["share"; "nuturtle_description"].

Definition rviz_color_of (prefix color : string) : string :=
  share_of prefix ++ "/config/basic_" ++ color ++ ".rviz".

Definition xacro_command (prefix color : string) : string :=
  "xacro " ++ posixpath.join (share_of prefix) ["urdf"; "turtlebot3_burger.urdf.xacro"]
  ++ " color:=" ++ color.

(** The four candidate processes, as started for a colour. *)
Definition gui_spec (color : string) : ProcessSpec :=
  {| package_of := "joint_state_publisher_gui";
     executable := "joint_state_publisher_gui";
     namespace := color; parameters := []; arguments := [] |}.

Definition jsp_spec (color : string) : ProcessSpec :=
  {| package_of := "joint_state_publisher";
     executable := "joint_state_publisher";
     namespace := color; parameters := []; arguments := [] |}.

Definition rsp_spec (color description : string) : ProcessSpec :=
  {| package_of := "robot_state_publisher";
     executable := "robot_state_publisher";
     namespace := color;
     parameters :=
       [ [ ("frame_prefix", posixpath.join color [""]);
           ("robot_description", description) ] ];
     arguments := [] |}.

Definition rviz_spec (prefix color : string) : ProcessSpec :=
  {| package_of := "rviz2";
     executable := "rviz2";
     namespace := color; parameters := [];
     arguments :=
       [ "-d"; rviz_color_of prefix color;
         posixpath.join (share_of prefix) [rviz_color_of prefix color] ] |}.

(** The processes of a launch in which nothing is raised. *)
Definition selected (prefix description : string) (args : gmap string string)
  : list ProcessSpec :=
  let color := color_of args in
  (if String.eqb (use_jsp_of args) "gui" then [gui_spec color] else [])
  ++ (if String.eqb (use_jsp_of args) "jsp" then [jsp_spec color] else [])
  ++ [rsp_spec color description]
  ++ (if str_to_bool (use_rviz_of args) then [rviz_spec prefix color] else []).

(** The launch configurations once [rviz_color] is set: the context the
    four nodes are visited in. *)
Definition configured (prefix : string) (args : gmap string string)
  : gmap string string :=
  <["rviz_color" := rviz_color_of prefix (color_of args)]> (declared args).

(** The joint-state processes alone: all that is started when the
    template command of the state publisher fails. *)
Definition joint_states (args : gmap string string) : list ProcessSpec :=
  let color := color_of args in
  (if String.eqb (use_jsp_of args) "gui" then [gui_spec color] else [])
  ++ (if String.eqb (use_jsp_of args) "jsp" then [jsp_spec color] else []).

(** The four nodes of the launch file, in the order they are declared. *)
Definition candidates : list NodeAction :=
  [joint_state_publisher_gui; joint_state_publisher; robot_state_publisher; rviz2].

(** Whether a process is one of the two joint-state candidates. *)
Definition joint_state_candidate (p : ProcessSpec) : bool :=
  pystr.mem (executable p) ["joint_state_publisher_gui"; "joint_state_publisher"].

(** Whether a node's condition lets it through in a context. *)
Definition included (w : World) (ctx : gmap string string) (n : NodeAction)
  : bool :=
  match evaluate w ctx (node_condition n) with
  | Ok b => b
  | Raise _ => false
  end.

(** The state publishers among the processes started. *)
Definition state_publishers (ps : list ProcessSpec) : list ProcessSpec :=
  List.filter (fun p => String.eqb (executable p) "robot_state_publisher") ps.

(** The value a process is given for a parameter; of two entries for one
    name the later stands, as when the dictionaries are merged. *)
Definition parameter (name : string) (p : ProcessSpec) : option string :=
  fold_left
    (fun found kv => if String.eqb (fst kv) name then Some (snd kv) else found)
    (concat (parameters p)) None.

(** Command lines used in the examples. *)
Definition sample_prefix : string := "/opt/ws/install/nuturtle_description".

Definition args_red : gmap string string :=
  {[ "use_jsp" := "jsp"; "use_rviz" := "false"; "color" := "red" ]}.

Definition args_uncoloured : gmap string string := {[ "color" := "" ]}.

Definition args_orange : gmap string string := {[ "color" := "orange" ]}.

Definition args_both : gmap string string := {[ "use_jsp" := "both" ]}.

(** The viewers among the processes started. *)
Definition viewers (ps : list ProcessSpec) : list ProcessSpec :=
  List.filter (fun p => String.eqb (executable p) "rviz2") ps.

(** An installation whose xacro exits with an error. *)
Definition failing_xacro_world : World :=
  {| get_package_prefix := get_package_prefix sample_world;
     subprocess_run := fun _ =>
       Some {| returncode := 1; stdout := ""; stderr := "xacro: error" |};
     str_is_float := decimal_literal;
     float_isclose := String.eqb |}.

(** An installation without the package. *)
Definition empty_index_world : World :=
  {| get_package_prefix := fun _ => None;
     subprocess_run := subprocess_run sample_world;
     str_is_float := decimal_literal;
     float_isclose := String.eqb |}.

Definition args_viewer_upper : gmap string string :=
  {[ "use_rviz" := "TRUE"; "use_jsp" := "none" ]}.


(** * Properties *)

(** ** The context after the declarations *)

Lemma setdefault_lookup name d (ctx : gmap string string) :
  setdefault name d ctx !! name = Some (default d (ctx !! name)).
Proof.
  unfold setdefault. destruct (ctx !! name) eqn:E; simpl.
  - exact E.
  - apply lookup_insert_eq.
Qed.

Lemma setdefault_lookup_ne name other d (ctx : gmap string string) :
  name ≠ other -> setdefault name d ctx !! other = ctx !! other.
Proof.
  intros Hne. unfold setdefault. destruct (ctx !! name); [done|].
  by apply lookup_insert_ne.
Qed.

Lemma declared_color args : declared args !! "color" = Some (color_of args).
Proof.
  unfold declared, color_of. rewrite setdefault_lookup.
  by rewrite !setdefault_lookup_ne.
Qed.

Lemma declared_use_rviz args :
  declared args !! "use_rviz" = Some (use_rviz_of args).
Proof.
  unfold declared, use_rviz_of. rewrite setdefault_lookup_ne by done.
  rewrite setdefault_lookup. by rewrite setdefault_lookup_ne.
Qed.

Lemma declared_use_jsp args :
  declared args !! "use_jsp" = Some (use_jsp_of args).
Proof.
  unfold declared, use_jsp_of. rewrite !setdefault_lookup_ne by done.
  apply setdefault_lookup.
Qed.

Lemma declare_unrestricted ctx name d :
  declare_launch_argument ctx name (Some d) None = Ok (setdefault name d ctx).
Proof.
  unfold declare_launch_argument, setdefault. by destruct (ctx !! name).
Qed.

Lemma declare_restricted ctx name d cs :
  declare_launch_argument ctx name (Some d) (Some cs) =
  let value := default d (ctx !! name) in
  if pystr.mem value cs then Ok (setdefault name d ctx)
  else Raise (ArgumentNotInChoices name value cs).
Proof.
  unfold declare_launch_argument.
  pose proof (setdefault_lookup name d ctx) as Hl. unfold setdefault in *.
  destruct (ctx !! name) eqn:E; simpl in *; by rewrite Hl.
Qed.

(** ** Equality tests and conditions *)

Section Conditions.

Variable w : World.
Hypothesis float_ok : float_syntax w.

(** Against a literal that is neither a boolean nor a float spelling, the
    equality substitution compares text. *)
Lemma equals_word l r :
  pystr.plain_word r = true -> str_is_bool r = false ->
  equals w l r = py_bool_str (String.eqb l r).
Proof.
  intros Hword Hbool. unfold equals.
  rewrite Hbool, (float_ok r Hword), !andb_false_r. reflexivity.
Qed.

Lemma str_to_bool_is_bool s : str_to_bool s = true -> str_is_bool s = true.
Proof.
  unfold str_to_bool, str_is_bool, pystr.mem. simpl.
  destruct (String.eqb (pystr.lower s) "true"),
           (String.eqb (pystr.lower s) "1"); simpl; try done;
    rewrite ?orb_true_r; done.
Qed.

Lemma eqb_true_to_bool s : String.eqb s "true" = true -> str_to_bool s = true.
Proof. intros ->%String.eqb_eq. reflexivity. Qed.

(** Against the literal true, both sides are compared as booleans
    whenever the left side spells one. *)
Lemma equals_true l : equals w l "true" = py_bool_str (str_to_bool l).
Proof.
  unfold equals.
  assert (str_is_float w "true" = false) as -> by (by apply float_ok).
  replace (str_is_bool "true") with true by reflexivity.
  replace (str_to_bool "true") with true by reflexivity.
  rewrite andb_true_r, andb_false_r.
  destruct (str_is_bool l) eqn:Hb.
  - by destruct (str_to_bool l).
  - destruct (str_to_bool l) eqn:Ht.
    + apply str_to_bool_is_bool in Ht. congruence.
    + destruct (String.eqb l "true") eqn:He; [|done].
      apply eqb_true_to_bool in He. congruence.
Qed.

Lemma condition_of_bool_str ctx (e : Substitution) b :
  perform w ctx e = Ok (py_bool_str b) ->
  evaluate_condition_expression w ctx e = Ok b.
Proof.
  intros H. unfold evaluate_condition_expression. rewrite H.
  by destruct b.
Qed.

Lemma if_equals_word ctx name value lit :
  ctx !! name = Some value ->
  pystr.plain_word lit = true -> str_is_bool lit = false ->
  evaluate w ctx (Some (IfCondition (EqualsSubstitution (LaunchConfiguration name) lit)))
  = Ok (String.eqb value lit).
Proof.
  intros Hl Hword Hbool. apply condition_of_bool_str.
  simpl. rewrite Hl. simpl. by rewrite equals_word.
Qed.

Lemma if_equals_true ctx name value :
  ctx !! name = Some value ->
  evaluate w ctx (Some (IfCondition (EqualsSubstitution (LaunchConfiguration name) "true")))
  = Ok (str_to_bool value).
Proof.
  intros Hl. apply condition_of_bool_str.
  simpl. rewrite Hl. simpl. by rewrite equals_true.
Qed.

End Conditions.

(** ** Visiting, step by step *)

Lemma visit_all_ok w ctx started e rest ctx' ps :
  visit w ctx e = Ok (ctx', ps) ->
  visit_all w ctx started (e :: rest) = visit_all w ctx' (started ++ ps) rest.
Proof. intros H. simpl. by rewrite H. Qed.

Lemma visit_all_raise w ctx started e rest x :
  visit w ctx e = Raise x ->
  visit_all w ctx started (e :: rest) =
  {| configurations := ctx; processes := started; raised := Some x |}.
Proof. intros H. simpl. by rewrite H. Qed.

Lemma visit_node w ctx n b p :
  evaluate w ctx (node_condition n) = Ok b ->
  execute_node w ctx n = Ok p ->
  visit w ctx (Node n) = Ok (ctx, if b then [p] else []).
Proof.
  intros Hc Hp. unfold visit. rewrite Hc. simpl.
  destruct b; [by rewrite Hp|done].
Qed.

(** ** A launch that goes through *)

Section Launch.

Variable w : World.
Variable args : gmap string string.
Variable prefix : string.

Hypothesis float_ok : float_syntax w.
Hypothesis installed : get_package_prefix w "nuturtle_description" = Some prefix.

Abbreviation ctx := (configured prefix args).

Lemma ctx_color : ctx !! "color" = Some (color_of args).
Proof. unfold configured. rewrite lookup_insert_ne by done. apply declared_color. Qed.

Lemma ctx_use_jsp : ctx !! "use_jsp" = Some (use_jsp_of args).
Proof. unfold configured. rewrite lookup_insert_ne by done. apply declared_use_jsp. Qed.

Lemma ctx_use_rviz : ctx !! "use_rviz" = Some (use_rviz_of args).
Proof. unfold configured. rewrite lookup_insert_ne by done. apply declared_use_rviz. Qed.

Lemma ctx_rviz_color :
  ctx !! "rviz_color" = Some (rviz_color_of prefix (color_of args)).
Proof. unfold configured. apply lookup_insert_eq. Qed.

Lemma set_rviz_color :
  visit w (declared args)
    (SetLaunchConfiguration "rviz_color"
       [ FindPackageShare "nuturtle_description";
         TextSubstitution "/config/basic_";
         LaunchConfiguration "color";
         TextSubstitution ".rviz" ])
  = Ok (ctx, []).
Proof.
  unfold visit, perform_substitutions. simpl.
  unfold find_package_share. rewrite installed, declared_color. reflexivity.
Qed.

Lemma start_gui :
  visit w ctx (Node joint_state_publisher_gui)
  = Ok (ctx, if String.eqb (use_jsp_of args) "gui"
             then [gui_spec (color_of args)] else []).
Proof.
  apply visit_node.
  - apply if_equals_word; [exact float_ok | apply ctx_use_jsp | done | done].
  - unfold execute_node. simpl. by rewrite ctx_color.
Qed.

Lemma start_jsp :
  visit w ctx (Node joint_state_publisher)
  = Ok (ctx, if String.eqb (use_jsp_of args) "jsp"
             then [jsp_spec (color_of args)] else []).
Proof.
  apply visit_node.
  - apply if_equals_word; [exact float_ok | apply ctx_use_jsp | done | done].
  - unfold execute_node. simpl. by rewrite ctx_color.
Qed.

Lemma start_rviz :
  visit w ctx (Node rviz2)
  = Ok (ctx, if str_to_bool (use_rviz_of args)
             then [rviz_spec prefix (color_of args)] else []).
Proof.
  apply visit_node.
  - apply if_equals_true; [exact float_ok | apply ctx_use_rviz].
  - unfold execute_node. simpl. rewrite ctx_color. simpl.
    unfold find_package_share. rewrite installed, ctx_rviz_color. reflexivity.
Qed.

Lemma start_rsp :
  visit w ctx (Node robot_state_publisher)
  = match run_command w (xacro_command prefix (color_of args)) with
    | Ok out => Ok (ctx, [rsp_spec (color_of args) out])
    | Raise x => Raise x
    end.
Proof.
  unfold visit, execute_node. simpl. rewrite ctx_color. simpl.
  unfold find_package_share. rewrite installed. simpl.
  change (run_command w _) with (run_command w (xacro_command prefix (color_of args))).
  by destruct (run_command w _).
Qed.

End Launch.

(** ** Up to the first node *)

(** The declarations and the derived configuration, for any world: the
    colour is checked first, then the package is looked up, and only then
    are the four nodes visited. *)
Lemma launch_prelude w args :
  launch w args =
  if pystr.mem (color_of args) color_choices then
    match get_package_prefix w "nuturtle_description" with
    | Some prefix => visit_all w (configured prefix args) [] (Node <$> candidates)
    | None =>
        {| configurations := declared args;
           processes := [];
           raised := Some (PackageNotFoundError "nuturtle_description") |}
    end
  else
    {| configurations := setdefault "use_rviz" "true" (setdefault "use_jsp" "gui" args);
       processes := [];
       raised := Some (ArgumentNotInChoices "color" (color_of args) color_choices) |}.
Proof.
  unfold launch, generate_launch_description.
  erewrite visit_all_ok by (unfold visit; by rewrite declare_unrestricted).
  erewrite visit_all_ok by (unfold visit; by rewrite declare_unrestricted).
  assert (default "purple"
            (setdefault "use_rviz" "true" (setdefault "use_jsp" "gui" args) !! "color")
          = color_of args) as Hcolor.
  { unfold color_of. by rewrite !setdefault_lookup_ne. }
  destruct (pystr.mem (color_of args) color_choices) eqn:Hmem.
  - erewrite visit_all_ok; cycle 1.
    { unfold visit. rewrite declare_restricted. cbv zeta.
      rewrite Hcolor, Hmem. reflexivity. }
    fold (declared args).
    destruct (get_package_prefix w "nuturtle_description") as [prefix|] eqn:Hp.
    + erewrite visit_all_ok by (by apply set_rviz_color). reflexivity.
    + apply visit_all_raise.
      unfold visit, perform_substitutions. simpl.
      unfold find_package_share. by rewrite Hp.
  - erewrite visit_all_raise; [reflexivity|].
    unfold visit. rewrite declare_restricted. cbv zeta.
    rewrite Hcolor, Hmem. reflexivity.
Qed.

(** Every way a launch can end when the package is installed. *)
Lemma launch_installed w args prefix :
  float_syntax w ->
  get_package_prefix w "nuturtle_description" = Some prefix ->
  pystr.mem (color_of args) color_choices = true ->
  launch w args =
  match run_command w (xacro_command prefix (color_of args)) with
  | Ok out =>
      {| configurations := configured prefix args;
         processes := selected prefix out args;
         raised := None |}
  | Raise x =>
      {| configurations := configured prefix args;
         processes := joint_states args;
         raised := Some x |}
  end.
Proof.
  intros Hfloat Hp Hmem. rewrite launch_prelude, Hmem, Hp.
  unfold candidates. rewrite !fmap_cons.
  erewrite visit_all_ok by (by apply start_gui).
  erewrite visit_all_ok by (by apply start_jsp).
  pose proof (start_rsp w args prefix Hp) as Hrsp.
  destruct (run_command w (xacro_command prefix (color_of args))) as [out|x].
  - erewrite visit_all_ok by apply Hrsp.
    erewrite visit_all_ok by (by apply start_rviz).
    simpl. unfold selected. by rewrite <- !app_assoc.
  - erewrite visit_all_raise by apply Hrsp. reflexivity.
Qed.

(** ** Any list of nodes *)

Lemma visit_node_cases w ctx n :
  (exists p, execute_node w ctx n = Ok p /\ visit w ctx (Node n) = Ok (ctx, [p]))
  \/ visit w ctx (Node n) = Ok (ctx, [])
  \/ exists x, visit w ctx (Node n) = Raise x.
Proof.
  unfold visit.
  destruct (evaluate w ctx (node_condition n)) as [[]|x]; simpl.
  - destruct (execute_node w ctx n) as [p|x]; simpl; eauto.
  - eauto.
  - eauto.
Qed.

(** Nodes never write to the launch configurations. *)
Lemma visit_nodes_configurations w ctx nodes :
  forall started,
    configurations (visit_all w ctx started (Node <$> nodes)) = ctx.
Proof.
  induction nodes as [|n nodes IH]; intros started; [done|].
  rewrite fmap_cons.
  destruct (visit_node_cases w ctx n) as [(p & _ & Hv)|[Hv|(x & Hv)]].
  - erewrite visit_all_ok by exact Hv. apply IH.
  - erewrite visit_all_ok by exact Hv. apply IH.
  - erewrite visit_all_raise by exact Hv. reflexivity.
Qed.

(** What holds of every process a node of the list can start holds of
    every process started. *)
Lemma visit_nodes_Forall (P : ProcessSpec -> Prop) w ctx nodes :
  (forall n p, n ∈ nodes -> execute_node w ctx n = Ok p -> P p) ->
  forall started, Forall P started ->
    Forall P (processes (visit_all w ctx started (Node <$> nodes))).
Proof.
  induction nodes as [|n nodes IH]; intros Hn started Hs; [done|].
  rewrite fmap_cons.
  assert (forall m p, m ∈ nodes -> execute_node w ctx m = Ok p -> P p) as Hrest.
  { intros m p Hm. apply Hn. by right. }
  destruct (visit_node_cases w ctx n) as [(p & Hp & Hv)|[Hv|(x & Hv)]].
  - erewrite visit_all_ok by exact Hv. apply IH; [done|].
    apply Forall_app; split; [done|].
    constructor; [|done]. eapply Hn; [left|done].
  - erewrite visit_all_ok by exact Hv. apply IH; [done|].
    by rewrite app_nil_r.
  - erewrite visit_all_raise by exact Hv. done.
Qed.

Lemma execute_node_executable w ctx n p :
  execute_node w ctx n = Ok p -> executable p = node_executable n.
Proof.
  unfold execute_node.
  destruct (perform w ctx (node_namespace n)); simpl; [|done].
  destruct (evaluate_parameters w ctx (node_parameters n)); simpl; [|done].
  destruct (perform_each w ctx (node_arguments n)); simpl; [|done].
  by intros [= <-].
Qed.

(** The executables started are picked from the nodes, in their order. *)
Lemma visit_nodes_sublist w ctx (nodes : list NodeAction) :
  forall started, exists kept : list NodeAction,
    kept `sublist_of` nodes /\
    executable <$> processes (visit_all w ctx started (Node <$> nodes))
    = (executable <$> started) ++ (node_executable <$> kept).
Proof.
  induction nodes as [|n nodes IH]; intros started.
  - exists []. split; [done|]. simpl. by rewrite app_nil_r.
  - rewrite fmap_cons.
    destruct (visit_node_cases w ctx n) as [(p & Hp & Hv)|[Hv|(x & Hv)]].
    + erewrite visit_all_ok by exact Hv.
      destruct (IH (started ++ [p])) as (kept & Hsub & Heq).
      exists (n :: kept). split; [by apply sublist_skip|].
      rewrite Heq, fmap_app, <- app_assoc. simpl.
      by rewrite (execute_node_executable _ _ _ _ Hp).
    + erewrite visit_all_ok by exact Hv.
      destruct (IH (started ++ [])) as (kept & Hsub & Heq).
      exists kept. split; [by apply sublist_cons|].
      by rewrite Heq, app_nil_r.
    + erewrite visit_all_raise by exact Hv.
      exists []. split; [apply sublist_nil_l|]. simpl. by rewrite app_nil_r.
Qed.

(** ** Membership, and the sample world *)

(** The end-to-end example of the specification: jsp, no viewer, red. *)
Example launch_red :
  processes (launch sample_world args_red)
  = [ jsp_spec "red";
      {| package_of := "robot_state_publisher";
         executable := "robot_state_publisher";
         namespace := "red";
         parameters :=
           [ [ ("frame_prefix", "red/");
               ("robot_description", xacro_output) ] ];
         arguments := [] |} ]
  /\ raised (launch sample_world args_red) = None.
Proof. by vm_compute. Qed.

Lemma mem_elem_of x xs : pystr.mem x xs = true <-> x ∈ xs.
Proof.
  unfold pystr.mem. induction xs as [|y xs IH]; simpl.
  - split; [done|]. by intros ?%elem_of_nil.
  - rewrite orb_true_iff, IH, elem_of_cons, String.eqb_eq. done.
Qed.

Lemma mem_not_elem_of x xs : pystr.mem x xs = false <-> x ∉ xs.
Proof.
  rewrite <- mem_elem_of. destruct (pystr.mem x xs); split; congruence.
Qed.

Lemma plain_letter_not_digit c : pystr.plain_letter c = true -> is_digit c = false.
Proof. by destruct c as [[] [] [] [] [] [] [] []]. Qed.

Lemma sample_float_syntax : float_syntax sample_world.
Proof.
  intros [|c r]; [done|]. simpl.
  intros [Hc _]%andb_true_iff. unfold decimal_literal. simpl.
  by rewrite (plain_letter_not_digit c Hc).
Qed.

Lemma sample_xacro prefix color :
  subprocess_run sample_world (xacro_command prefix color)
  = Some {| returncode := 0; stdout := xacro_output; stderr := "" |}.
Proof. reflexivity. Qed.

(** ** A launch in which nothing is raised *)

Lemma launch_raises_nothing w args :
  float_syntax w ->
  raised (launch w args) = None ->
  exists prefix out,
    get_package_prefix w "nuturtle_description" = Some prefix
    /\ color_of args ∈ color_choices
    /\ run_command w (xacro_command prefix (color_of args)) = Ok out
    /\ launch w args =
       {| configurations := configured prefix args;
          processes := selected prefix out args;
          raised := None |}.
Proof.
  intros Hfloat Hnone.
  pose proof (launch_prelude w args) as Hpre.
  destruct (pystr.mem (color_of args) color_choices) eqn:Hmem;
    [|by rewrite Hpre in Hnone].
  destruct (get_package_prefix w "nuturtle_description") as [prefix|] eqn:Hp;
    [|by rewrite Hpre in Hnone].
  pose proof (launch_installed w args prefix Hfloat Hp Hmem) as Hl.
  destruct (run_command w (xacro_command prefix (color_of args))) as [out|x] eqn:Hrun;
    [|by rewrite Hl in Hnone].
  exists prefix, out. by rewrite <- mem_elem_of.
Qed.

Lemma run_command_stdout w cmd p :
  subprocess_run w cmd = Some p -> returncode p = 0%Z -> stderr p = "" ->
  run_command w cmd = Ok (stdout p).
Proof. intros H Hrc Herr. unfold run_command. by rewrite H, Hrc, Herr. Qed.

Lemma execute_node_namespace w ctx n p color :
  node_namespace n = LaunchConfiguration "color" ->
  ctx !! "color" = Some color ->
  execute_node w ctx n = Ok p -> namespace p = color.
Proof.
  intros Hns Hc. unfold execute_node. rewrite Hns. simpl. rewrite Hc. simpl.
  destruct (evaluate_parameters w ctx (node_parameters n)); simpl; [|done].
  destruct (perform_each w ctx (node_arguments n)); simpl; [|done].
  by intros [= <-].
Qed.

Lemma candidates_namespace n :
  n ∈ candidates -> node_namespace n = LaunchConfiguration "color".
Proof.
  unfold candidates. rewrite !elem_of_cons, elem_of_nil.
  by intros [->|[->|[->|[->|[]]]]].
Qed.

(** For a colour of the launch file, joining it with the empty path gives
    the colour and a slash, except that no colour gives no prefix. *)
Lemma frame_prefix_of_choice color :
  color ∈ color_choices ->
  posixpath.join color [""] = if String.eqb color "" then "" else (color ++ "/")%string.
Proof.
  unfold color_choices. rewrite !elem_of_cons, elem_of_nil.
  by intros [->|[->|[->|[->|[->|[->|[->|[->|[]]]]]]]]].
Qed.

(** * The launch file against its specification *)

(** C1, as the code has it.  For every colour of the allowed set, the
    launch sets [rviz_color] to the share directory of the package
    followed by "/config/basic_", the colour and ".rviz": the path is
    absolute, it starts with the package's share directory. *)
Theorem rviz_color_value w args prefix :
  get_package_prefix w "nuturtle_description" = Some prefix ->
  color_of args ∈ color_choices ->
  configurations (launch w args) !! "rviz_color"
  = Some (posixpath.join prefix ["share"; "nuturtle_description"]
          ++ "/config/basic_" ++ color_of args ++ ".rviz")%string.
Proof.
  intros Hp Hc%mem_elem_of.
  rewrite launch_prelude, Hc, Hp, visit_nodes_configurations.
  apply ctx_rviz_color.
Qed.

Lemma rviz_color_value_witness :
  configurations (launch sample_world args_red) !! "rviz_color"
  = Some "/opt/ws/install/nuturtle_description/share/nuturtle_description/config/basic_red.rviz".
Proof.
  apply (rviz_color_value sample_world args_red sample_prefix).
  - reflexivity.
  - apply mem_elem_of. reflexivity.
Defined.

(** C1 as stated fails: for the allowed colour red the value of
    [rviz_color] is not "config/basic_red.rviz", the share directory of
    the package comes first. *)
Lemma rviz_color_not_relative :
  "red" ∈ color_choices
  /\ color_of args_red = "red"
  /\ raised (launch sample_world args_red) = None
  /\ configurations (launch sample_world args_red) !! "rviz_color"
     ≠ Some "config/basic_red.rviz".
Proof.
  split; [apply mem_elem_of; reflexivity|].
  split; [reflexivity|]. split; [by vm_compute|].
  vm_compute. discriminate.
Qed.

(** C2.  With the colour accepted and the package installed: for use_jsp
    gui the joint-state processes started are the GUI one alone, for jsp
    the plain one alone, for none there is none. *)
Theorem joint_state_selection w args prefix :
  float_syntax w ->
  get_package_prefix w "nuturtle_description" = Some prefix ->
  color_of args ∈ color_choices ->
  (use_jsp_of args = "gui" ->
   List.filter joint_state_candidate (processes (launch w args))
   = [gui_spec (color_of args)])
  /\ (use_jsp_of args = "jsp" ->
      List.filter joint_state_candidate (processes (launch w args))
      = [jsp_spec (color_of args)])
  /\ (use_jsp_of args = "none" ->
      List.filter joint_state_candidate (processes (launch w args)) = []).
Proof.
  intros Hfloat Hp Hc%mem_elem_of.
  rewrite (launch_installed w args prefix Hfloat Hp Hc).
  repeat split; intros Hjsp;
    destruct (run_command w _); simpl; unfold selected, joint_states;
    rewrite Hjsp; simpl; try reflexivity;
    by destruct (str_to_bool (use_rviz_of args)).
Qed.

Lemma joint_state_selection_witness :
  List.filter joint_state_candidate (processes (launch sample_world args_red))
  = [jsp_spec "red"].
Proof.
  apply (joint_state_selection sample_world args_red sample_prefix).
  - exact sample_float_syntax.
  - reflexivity.
  - apply mem_elem_of. reflexivity.
  - reflexivity.
Defined.

(** C3.  In a launch that raises nothing the state publisher is started
    whatever the arguments; the viewer is started for use_rviz true and
    is not for use_rviz false. *)
Theorem viewer_and_state_publisher w args :
  float_syntax w ->
  raised (launch w args) = None ->
  exists prefix out,
    rsp_spec (color_of args) out ∈ processes (launch w args)
    /\ (use_rviz_of args = "true" ->
        rviz_spec prefix (color_of args) ∈ processes (launch w args))
    /\ (use_rviz_of args = "false" ->
        Forall (fun p => executable p ≠ "rviz2") (processes (launch w args))).
Proof.
  intros Hfloat Hnone.
  destruct (launch_raises_nothing w args Hfloat Hnone)
    as (prefix & out & _ & _ & _ & ->).
  exists prefix, out. simpl. unfold selected. repeat split.
  - rewrite !elem_of_app. do 2 right. left. by apply list_elem_of_singleton.
  - intros ->. rewrite !elem_of_app. simpl.
    do 3 right. by apply list_elem_of_singleton.
  - intros ->. simpl.
    destruct (String.eqb (use_jsp_of args) "gui"),
             (String.eqb (use_jsp_of args) "jsp"); simpl;
      repeat constructor; done.
Qed.

Lemma viewer_and_state_publisher_witness :
  exists prefix out,
    rsp_spec "red" out ∈ processes (launch sample_world args_red)
    /\ ("false" = "true" ->
        rviz_spec prefix "red" ∈ processes (launch sample_world args_red))
    /\ ("false" = "false" ->
        Forall (fun p => executable p ≠ "rviz2")
          (processes (launch sample_world args_red))).
Proof.
  apply (viewer_and_state_publisher sample_world args_red).
  - exact sample_float_syntax.
  - reflexivity.
Defined.

(** C4.  Whatever the arguments and the launch configurations, the two
    joint-state conditions never both hold, and at most one joint-state
    process is started. *)
Theorem joint_states_exclusive w args :
  float_syntax w ->
  (forall ctx,
      ~ (evaluate w ctx (node_condition joint_state_publisher_gui) = Ok true
         /\ evaluate w ctx (node_condition joint_state_publisher) = Ok true))
  /\ length (List.filter joint_state_candidate (processes (launch w args))) <= 1.
Proof.
  intros Hfloat. split.
  - intros ctx [Hgui Hjsp].
    destruct (ctx !! "use_jsp") as [value|] eqn:Hv.
    + pose proof (if_equals_word w Hfloat ctx "use_jsp" value "gui" Hv eq_refl eq_refl) as Eg.
      pose proof (if_equals_word w Hfloat ctx "use_jsp" value "jsp" Hv eq_refl eq_refl) as Ej.
      assert (String.eqb value "gui" = true) as ->%String.eqb_eq
        by (enough (Ok (String.eqb value "gui") = Ok true) by congruence;
            rewrite <- Eg; exact Hgui).
      assert (Ok (String.eqb "gui" "jsp") = Ok true) as [=]
        by (rewrite <- Ej; exact Hjsp).
    + assert (evaluate w ctx (node_condition joint_state_publisher_gui)
              = Raise (UnknownLaunchConfiguration "use_jsp")) as E.
      { simpl. unfold evaluate_condition_expression. simpl. by rewrite Hv. }
      congruence.
  - pose proof (launch_prelude w args) as Hpre.
    destruct (pystr.mem (color_of args) color_choices) eqn:Hmem;
      [|rewrite Hpre; simpl; lia].
    destruct (get_package_prefix w "nuturtle_description") as [prefix|] eqn:Hp;
      [|rewrite Hpre; simpl; lia].
    clear Hpre. rewrite (launch_installed w args prefix Hfloat Hp Hmem).
    destruct (String.eqb (use_jsp_of args) "gui") eqn:Hgui.
    + apply String.eqb_eq in Hgui.
      destruct (run_command w _); simpl; unfold selected, joint_states;
        rewrite Hgui; simpl; [|lia].
      destruct (str_to_bool (use_rviz_of args)); simpl; lia.
    + destruct (run_command w _); simpl; unfold selected, joint_states;
        rewrite Hgui; simpl;
        destruct (String.eqb (use_jsp_of args) "jsp"); simpl; try lia;
        destruct (str_to_bool (use_rviz_of args)); simpl; lia.
Qed.

Lemma joint_states_exclusive_witness :
  (forall ctx,
      ~ (evaluate sample_world ctx (node_condition joint_state_publisher_gui) = Ok true
         /\ evaluate sample_world ctx (node_condition joint_state_publisher) = Ok true))
  /\ length (List.filter joint_state_candidate
               (processes (launch sample_world args_both))) <= 1.
Proof.
  apply (joint_states_exclusive sample_world args_both).
  exact sample_float_syntax.
Defined.

(** C5.  A colour outside the allowed set makes the declaration of the
    argument raise, before any process is started: the launch ends with
    that exception and no process. *)
Theorem color_outside_choices w args c :
  args !! "color" = Some c ->
  c ∉ color_choices ->
  raised (launch w args) = Some (ArgumentNotInChoices "color" c color_choices)
  /\ processes (launch w args) = [].
Proof.
  intros Hc Hout%mem_not_elem_of.
  assert (color_of args = c) as Hcolor by (unfold color_of; by rewrite Hc).
  rewrite launch_prelude, Hcolor, Hout. done.
Qed.

Lemma color_outside_choices_witness :
  raised (launch sample_world args_orange)
  = Some (ArgumentNotInChoices "color" "orange" color_choices)
  /\ processes (launch sample_world args_orange) = [].
Proof.
  apply (color_outside_choices sample_world args_orange "orange").
  - reflexivity.
  - apply mem_not_elem_of. reflexivity.
Defined.

(** C6, as the code has it.  The argument use_jsp is declared without
    choices: a value outside gui, jsp and none raises nothing, and the
    launch starts neither joint-state process. *)
Theorem use_jsp_unrestricted w args prefix out value :
  float_syntax w ->
  get_package_prefix w "nuturtle_description" = Some prefix ->
  color_of args ∈ color_choices ->
  run_command w (xacro_command prefix (color_of args)) = Ok out ->
  args !! "use_jsp" = Some value ->
  value ∉ ["gui"; "jsp"; "none"] ->
  raised (launch w args) = None
  /\ List.filter joint_state_candidate (processes (launch w args)) = [].
Proof.
  intros Hfloat Hp Hc%mem_elem_of Hrun Hv Hout.
  rewrite (launch_installed w args prefix Hfloat Hp Hc), Hrun. simpl.
  split; [done|].
  assert (use_jsp_of args = value) as Hjsp by (unfold use_jsp_of; by rewrite Hv).
  unfold selected. rewrite Hjsp.
  assert (String.eqb value "gui" = false) as ->.
  { apply String.eqb_neq. intros ->. apply Hout. set_solver. }
  assert (String.eqb value "jsp" = false) as ->.
  { apply String.eqb_neq. intros ->. apply Hout. set_solver. }
  simpl. by destruct (str_to_bool (use_rviz_of args)).
Qed.

Lemma use_jsp_unrestricted_witness :
  raised (launch sample_world args_both) = None
  /\ List.filter joint_state_candidate (processes (launch sample_world args_both)) = [].
Proof.
  apply (use_jsp_unrestricted sample_world args_both sample_prefix xacro_output "both").
  - exact sample_float_syntax.
  - reflexivity.
  - apply mem_elem_of. reflexivity.
  - reflexivity.
  - reflexivity.
  - apply mem_not_elem_of. reflexivity.
Defined.

(** C6 as stated fails: use_jsp:=both is outside gui, jsp and none, and
    the launch raises nothing; it starts the state publisher and the
    viewer. *)
Lemma use_jsp_outside_not_fatal :
  args_both !! "use_jsp" = Some "both"
  /\ pystr.mem "both" ["gui"; "jsp"; "none"] = false
  /\ raised (launch sample_world args_both) = None
  /\ processes (launch sample_world args_both)
     = [rsp_spec "purple" xacro_output; rviz_spec sample_prefix "purple"].
Proof. by vm_compute. Qed.

(** C7, as the code has it.  When the xacro command exits with code 0 and
    an empty stderr, the state publisher is started with robot_description
    set to the command's stdout, the command being xacro, the template
    path and color:= followed by the colour; and with frame_prefix set to
    the colour followed by "/", except that for the empty colour
    frame_prefix is empty. *)
Theorem state_publisher_parameters w args prefix cp :
  float_syntax w ->
  get_package_prefix w "nuturtle_description" = Some prefix ->
  color_of args ∈ color_choices ->
  subprocess_run w (xacro_command prefix (color_of args)) = Some cp ->
  returncode cp = 0%Z ->
  stderr cp = "" ->
  exists p,
    state_publishers (processes (launch w args)) = [p]
    /\ parameter "frame_prefix" p
       = Some (if String.eqb (color_of args) "" then ""
               else (color_of args ++ "/")%string)
    /\ parameter "robot_description" p = Some (stdout cp).
Proof.
  intros Hfloat Hp Hc Hrun Hrc Herr.
  pose proof Hc as Hmem%mem_elem_of.
  rewrite (launch_installed w args prefix Hfloat Hp Hmem).
  rewrite (run_command_stdout w _ cp Hrun Hrc Herr). simpl.
  exists (rsp_spec (color_of args) (stdout cp)). split; [|split].
  - unfold selected, state_publishers.
    destruct (String.eqb (use_jsp_of args) "gui"),
             (String.eqb (use_jsp_of args) "jsp"),
             (str_to_bool (use_rviz_of args)); reflexivity.
  - unfold parameter. simpl. by rewrite <- frame_prefix_of_choice.
  - reflexivity.
Qed.

Lemma state_publisher_parameters_witness :
  exists p,
    state_publishers (processes (launch sample_world args_red)) = [p]
    /\ parameter "frame_prefix" p = Some "red/"
    /\ parameter "robot_description" p = Some xacro_output.
Proof.
  apply (state_publisher_parameters sample_world args_red sample_prefix
           {| returncode := 0; stdout := xacro_output; stderr := "" |}).
  - exact sample_float_syntax.
  - reflexivity.
  - apply mem_elem_of. reflexivity.
  - reflexivity.
  - reflexivity.
  - reflexivity.
Defined.

(** C7 as stated fails: the empty colour is allowed, and with it the state
    publisher's frame_prefix is empty, not "/". *)
Lemma frame_prefix_without_color :
  pystr.mem "" color_choices = true
  /\ color_of args_uncoloured = ""
  /\ raised (launch sample_world args_uncoloured) = None
  /\ parameter "frame_prefix"
       <$> state_publishers (processes (launch sample_world args_uncoloured))
     = [Some ""]
  /\ Some "" ≠ Some ("" ++ "/")%string.
Proof. repeat split; try by vm_compute. Qed.

(** When no node raises, the executables started are those of the nodes
    whose condition holds, in the order of the nodes. *)
Lemma visit_nodes_filter w ctx (nodes : list NodeAction) :
  forall started,
    raised (visit_all w ctx started (Node <$> nodes)) = None ->
    executable <$> processes (visit_all w ctx started (Node <$> nodes))
    = (executable <$> started)
      ++ (node_executable <$> List.filter (included w ctx) nodes).
Proof.
  induction nodes as [|n nodes IH]; intros started.
  - intros _. simpl. by rewrite app_nil_r.
  - rewrite fmap_cons. simpl List.filter. unfold included at 1.
    destruct (visit_node_cases w ctx n) as [(p & Hp & Hv)|[Hv|(x & Hv)]].
    + erewrite visit_all_ok by exact Hv. intros Hnone.
      rewrite (IH _ Hnone), fmap_app, <- app_assoc.
      unfold visit in Hv.
      destruct (evaluate w ctx (node_condition n)) as [[]|]; simpl in Hv;
        [|discriminate..].
      simpl. by rewrite (execute_node_executable _ _ _ _ Hp).
    + erewrite visit_all_ok by exact Hv. intros Hnone.
      rewrite (IH _ Hnone), app_nil_r.
      unfold visit in Hv.
      destruct (evaluate w ctx (node_condition n)) as [[]|]; simpl in Hv;
        [|done|discriminate].
      destruct (execute_node w ctx n); discriminate.
    + erewrite visit_all_raise by exact Hv. discriminate.
Qed.

(** C8.  The executables of the processes started are picked, in order,
    from those of the four nodes as declared; and in a launch that raises
    nothing they are exactly the nodes whose condition holds, the others
    leaving no trace. *)
Theorem started_in_declaration_order w args :
  (executable <$> processes (launch w args))
    `sublist_of` (node_executable <$> candidates)
  /\ (raised (launch w args) = None ->
      exists prefix,
        get_package_prefix w "nuturtle_description" = Some prefix
        /\ executable <$> processes (launch w args)
           = node_executable
               <$> List.filter (included w (configured prefix args)) candidates).
Proof.
  pose proof (launch_prelude w args) as Hpre.
  destruct (pystr.mem (color_of args) color_choices);
    [|rewrite Hpre; split; [apply sublist_nil_l|discriminate]].
  destruct (get_package_prefix w "nuturtle_description") as [prefix|];
    [|rewrite Hpre; split; [apply sublist_nil_l|discriminate]].
  rewrite Hpre. split.
  - destruct (visit_nodes_sublist w (configured prefix args) candidates [])
      as (kept & Hsub & ->).
    rewrite app_nil_l. by apply (fmap_sublist node_executable).
  - intros Hnone. exists prefix. split; [done|].
    by rewrite (visit_nodes_filter _ _ _ _ Hnone).
Qed.

Lemma started_in_declaration_order_witness :
  executable <$> processes (launch sample_world args_red)
  = ["joint_state_publisher"; "robot_state_publisher"].
Proof.
  destruct (started_in_declaration_order sample_world args_red) as [_ Hexact].
  destruct (Hexact eq_refl) as (prefix & [= <-] & ->).
  reflexivity.
Defined.

(** C9.  Whatever the world and the arguments, every process started has
    the resolved colour as its namespace. *)
Theorem namespaces_are_color w args :
  Forall (fun p => namespace p = color_of args) (processes (launch w args)).
Proof.
  rewrite launch_prelude.
  destruct (pystr.mem (color_of args) color_choices); [|by constructor].
  destruct (get_package_prefix w "nuturtle_description") as [prefix|];
    [|by constructor].
  apply visit_nodes_Forall; [|by constructor].
  intros n p Hn Hp.
  eapply execute_node_namespace; [by apply candidates_namespace| |exact Hp].
  apply ctx_color.
Qed.

(** C10.  The empty colour is accepted: with the package installed and
    the xacro command succeeding nothing is raised, every process started
    has the empty namespace, and [rviz_color] is the path of basic_.rviz
    in the share directory. *)
Theorem empty_color_accepted w args prefix out :
  float_syntax w ->
  args !! "color" = Some "" ->
  get_package_prefix w "nuturtle_description" = Some prefix ->
  run_command w (xacro_command prefix "") = Ok out ->
  raised (launch w args) = None
  /\ Forall (fun p => namespace p = "") (processes (launch w args))
  /\ configurations (launch w args) !! "rviz_color"
     = Some (posixpath.join prefix ["share"; "nuturtle_description"]
             ++ "/config/basic_.rviz")%string.
Proof.
  intros Hfloat Hc Hp Hrun.
  assert (color_of args = "") as Hcolor by (unfold color_of; by rewrite Hc).
  rewrite (launch_installed w args prefix Hfloat Hp)
    by (by rewrite Hcolor).
  rewrite Hcolor, Hrun. simpl. split; [done|]. split.
  - unfold selected. rewrite Hcolor.
    destruct (String.eqb (use_jsp_of args) "gui"),
             (String.eqb (use_jsp_of args) "jsp"),
             (str_to_bool (use_rviz_of args)); simpl; repeat constructor.
  - rewrite ctx_rviz_color, Hcolor. reflexivity.
Qed.

Lemma empty_color_accepted_witness :
  raised (launch sample_world args_uncoloured) = None
  /\ Forall (fun p => namespace p = "")
       (processes (launch sample_world args_uncoloured))
  /\ configurations (launch sample_world args_uncoloured) !! "rviz_color"
     = Some "/opt/ws/install/nuturtle_description/share/nuturtle_description/config/basic_.rviz".
Proof.
  apply (empty_color_accepted sample_world args_uncoloured sample_prefix xacro_output).
  - exact sample_float_syntax.
  - reflexivity.
  - reflexivity.
  - reflexivity.
Defined.

(** * Further properties of the launch file *)

(** ** Helpers *)

Lemma setdefault_present name d (ctx : gmap string string) v :
  ctx !! name = Some v -> setdefault name d ctx = ctx.
Proof. intros H. unfold setdefault. by rewrite H. Qed.

Lemma declared_idem args : declared (declared args) = declared args.
Proof.
  unfold declared at 1.
  rewrite (setdefault_present "use_jsp" _ _ _ (declared_use_jsp args)).
  rewrite (setdefault_present "use_rviz" _ _ _ (declared_use_rviz args)).
  by rewrite (setdefault_present "color" _ _ _ (declared_color args)).
Qed.

Lemma color_of_declared args : color_of (declared args) = color_of args.
Proof. unfold color_of at 1. by rewrite declared_color. Qed.


Lemma run_command_fails w cmd :
  (subprocess_run w cmd = None
   \/ exists p, subprocess_run w cmd = Some p
                /\ (returncode p ≠ 0%Z \/ stderr p ≠ "")) ->
  run_command w cmd = Raise (CommandFailed cmd).
Proof.
  unfold run_command. intros [->|(p & -> & Hbad)]; [done|].
  destruct (Z.eqb_spec (returncode p) 0) as [Hrc|Hrc]; simpl; [|done].
  destruct (String.eqb_spec (stderr p) "") as [Herr|Herr]; simpl; [|done].
  by destruct Hbad.
Qed.

Lemma decimal_float_syntax w :
  (forall s, str_is_float w s = decimal_literal s) -> float_syntax w.
Proof.
  intros Hw s Hs. rewrite Hw. by apply sample_float_syntax.
Qed.

(** ** Defaults *)

(** X1.  Leaving an argument out and giving it its default (gui, true,
    purple) are the same launch: same processes, same exception, same
    launch configurations. *)
Theorem defaults_as_supplied w args :
  launch w (declared args) = launch w args.
Proof.
  rewrite !launch_prelude, color_of_declared.
  destruct (pystr.mem (color_of args) color_choices) eqn:Hmem.
  - unfold configured.
    by rewrite declared_idem, color_of_declared.
  - f_equal.
    rewrite (setdefault_present "use_jsp" _ _ _ (declared_use_jsp args)).
    rewrite (setdefault_present "use_rviz" _ _ _ (declared_use_rviz args)).
    unfold declared.
    destruct (args !! "color") as [c|] eqn:Hc.
    + apply (setdefault_present "color" _ _ c).
      by rewrite !setdefault_lookup_ne.
    + unfold color_of in Hmem. rewrite Hc in Hmem. discriminate.
Qed.

(** ** Errors *)

(** X2.  With an allowed colour but the package not in the index, the
    launch raises the package error while setting [rviz_color]: no
    process is started, whatever use_jsp and use_rviz are. *)
Theorem package_missing w args :
  get_package_prefix w "nuturtle_description" = None ->
  color_of args ∈ color_choices ->
  raised (launch w args) = Some (PackageNotFoundError "nuturtle_description")
  /\ processes (launch w args) = []
  /\ configurations (launch w args) !! "rviz_color" = args !! "rviz_color".
Proof.
  intros Hp Hc%mem_elem_of. rewrite launch_prelude, Hc, Hp. simpl.
  repeat split. unfold declared. by rewrite !setdefault_lookup_ne.
Qed.

Lemma package_missing_witness :
  raised (launch empty_index_world args_red)
  = Some (PackageNotFoundError "nuturtle_description")
  /\ processes (launch empty_index_world args_red) = []
  /\ configurations (launch empty_index_world args_red) !! "rviz_color"
     = args_red !! "rviz_color".
Proof.
  apply (package_missing empty_index_world args_red).
  - reflexivity.
  - apply mem_elem_of. reflexivity.
Defined.

(** X3.  When the xacro command cannot be run, exits with a non-zero
    code or writes to stderr, the launch raises while executing the state
    publisher.  By then the joint-state node chosen by use_jsp has been
    executed; the state publisher and the viewer are not. *)
Theorem xacro_failure w args prefix :
  float_syntax w ->
  get_package_prefix w "nuturtle_description" = Some prefix ->
  color_of args ∈ color_choices ->
  (subprocess_run w (xacro_command prefix (color_of args)) = None
   \/ exists p, subprocess_run w (xacro_command prefix (color_of args)) = Some p
                /\ (returncode p ≠ 0%Z \/ stderr p ≠ "")) ->
  raised (launch w args)
  = Some (CommandFailed (xacro_command prefix (color_of args)))
  /\ processes (launch w args) = joint_states args
  /\ state_publishers (processes (launch w args)) = []
  /\ viewers (processes (launch w args)) = [].
Proof.
  intros Hfloat Hp Hc%mem_elem_of Hfail%run_command_fails.
  rewrite (launch_installed w args prefix Hfloat Hp Hc), Hfail. simpl.
  repeat split; unfold joint_states;
    by destruct (String.eqb (use_jsp_of args) "gui"),
                (String.eqb (use_jsp_of args) "jsp").
Qed.

Lemma xacro_failure_witness :
  raised (launch failing_xacro_world args_red)
  = Some (CommandFailed (xacro_command sample_prefix "red"))
  /\ processes (launch failing_xacro_world args_red) = [jsp_spec "red"]
  /\ state_publishers (processes (launch failing_xacro_world args_red)) = []
  /\ viewers (processes (launch failing_xacro_world args_red)) = [].
Proof.
  apply (xacro_failure failing_xacro_world args_red sample_prefix).
  - apply decimal_float_syntax. reflexivity.
  - reflexivity.
  - apply mem_elem_of. reflexivity.
  - right. eexists. split; [reflexivity|]. left. discriminate.
Defined.



(** ** What is read *)



(** ** Paths *)

Lemma string_app_assoc (a b c : string) :
  ((a ++ b) ++ c = a ++ (b ++ c))%string.
Proof.
  induction a as [|x a IH]; [done|].
  change (String x ((a ++ b) ++ c) = String x (a ++ (b ++ c)))%string.
  by rewrite IH.
Qed.

Lemma string_app_nonempty (a b : string) :
  b ≠ "" -> (a ++ b)%string ≠ "".
Proof.
  intros Hb. destruct a as [|x a]; [done|].
  change (String x (a ++ b)%string ≠ ""). discriminate.
Qed.

Lemma endswith_app c (a b : string) :
  b ≠ "" -> pystr.endswith c (a ++ b) = pystr.endswith c b.
Proof.
  intros Hb. induction a as [|x a IH]; [done|].
  change (pystr.endswith c (String x (a ++ b)) = pystr.endswith c b).
  pose proof (string_app_nonempty a b Hb) as Hne.
  rewrite <- IH. by destruct (a ++ b)%string.
Qed.

Lemma startswith_app pre (a b : string) :
  pystr.startswith pre a = true -> pystr.startswith pre (a ++ b) = true.
Proof.
  revert a. induction pre as [|x pre IH]; intros a; [done|].
  destruct a as [|y a]; [done|].
  change (pystr.startswith (String x pre) (String y a ++ b))
    with (Ascii.eqb y x && pystr.startswith pre (a ++ b)).
  simpl. intros [-> Ha]%andb_true_iff. simpl. by apply IH.
Qed.

(** Joining onto a path that is not empty and has no slash at its end,
    with a component that has none at its start, puts one slash between. *)
Lemma join_step_plain path b :
  path ≠ "" -> pystr.endswith "/" path = false ->
  pystr.startswith "/" b = false ->
  posixpath.join_step path b = (path ++ "/" ++ b)%string.
Proof.
  intros Hne Hend Hb. unfold posixpath.join_step. rewrite Hb, Hend.
  by destruct (String.eqb_spec path "").
Qed.

(** A component that starts with a slash replaces what came before. *)
Lemma join_step_absolute path b :
  pystr.startswith "/" b = true -> posixpath.join_step path b = b.
Proof. intros Hb. unfold posixpath.join_step. by rewrite Hb. Qed.

Ltac literal_nonempty := vm_compute; discriminate.

Lemma share_of_plain prefix :
  prefix ≠ "" -> pystr.endswith "/" prefix = false ->
  share_of prefix = (prefix ++ "/share/nuturtle_description")%string.
Proof.
  intros Hne Hend. unfold share_of, posixpath.join. cbn [fold_left].
  rewrite (join_step_plain prefix "share") by done.
  rewrite join_step_plain.
  - rewrite string_app_assoc. reflexivity.
  - apply string_app_nonempty. literal_nonempty.
  - rewrite endswith_app; [reflexivity|literal_nonempty].
  - reflexivity.
Qed.

Lemma xacro_command_plain prefix color :
  prefix ≠ "" -> pystr.endswith "/" prefix = false ->
  xacro_command prefix color
  = ("xacro " ++ prefix
     ++ "/share/nuturtle_description/urdf/turtlebot3_burger.urdf.xacro color:="
     ++ color)%string.
Proof.
  intros Hne Hend. unfold xacro_command.
  rewrite (share_of_plain prefix Hne Hend). unfold posixpath.join.
  cbn [fold_left].
  rewrite (join_step_plain _ "urdf");
    [|apply string_app_nonempty; literal_nonempty
     |rewrite endswith_app; [reflexivity|literal_nonempty]
     |reflexivity].
  rewrite join_step_plain;
    [|apply string_app_nonempty; literal_nonempty
     |rewrite endswith_app; [reflexivity|literal_nonempty]
     |reflexivity].
  rewrite !string_app_assoc. reflexivity.
Qed.

Lemma rviz_color_of_plain prefix color :
  prefix ≠ "" -> pystr.endswith "/" prefix = false ->
  rviz_color_of prefix color
  = (prefix ++ "/share/nuturtle_description/config/basic_" ++ color ++ ".rviz")%string.
Proof.
  intros Hne Hend. unfold rviz_color_of.
  rewrite (share_of_plain prefix Hne Hend), string_app_assoc. reflexivity.
Qed.

Lemma viewers_selected prefix out args :
  viewers (selected prefix out args)
  = if str_to_bool (use_rviz_of args)
    then [rviz_spec prefix (color_of args)] else [].
Proof.
  unfold selected, viewers.
  by destruct (String.eqb (use_jsp_of args) "gui"),
              (String.eqb (use_jsp_of args) "jsp"),
              (str_to_bool (use_rviz_of args)).
Qed.

(** ** The viewer *)

(** X6.  use_rviz is not compared as text: in a launch that raises
    nothing the viewer is started exactly when use_rviz, in lower case,
    is true or 1 (so also for True, TRUE and 1), and for any other value
    it is not. *)
Theorem viewer_when_truthy w args :
  float_syntax w ->
  raised (launch w args) = None ->
  (pystr.lower (use_rviz_of args) ∈ ["true"; "1"] ->
   exists prefix,
     get_package_prefix w "nuturtle_description" = Some prefix
     /\ viewers (processes (launch w args)) = [rviz_spec prefix (color_of args)])
  /\ (pystr.lower (use_rviz_of args) ∉ ["true"; "1"] ->
      viewers (processes (launch w args)) = []).
Proof.
  intros Hfloat Hnone.
  destruct (launch_raises_nothing w args Hfloat Hnone)
    as (prefix & out & Hp & _ & _ & ->).
  simpl. rewrite viewers_selected. unfold str_to_bool. split.
  - intros ->%mem_elem_of. eauto.
  - by intros ->%mem_not_elem_of.
Qed.

Lemma viewer_when_truthy_witness :
  (pystr.lower "TRUE" ∈ ["true"; "1"] ->
   exists prefix,
     get_package_prefix sample_world "nuturtle_description" = Some prefix
     /\ viewers (processes (launch sample_world args_viewer_upper))
        = [rviz_spec prefix "purple"])
  /\ (pystr.lower "TRUE" ∉ ["true"; "1"] ->
      viewers (processes (launch sample_world args_viewer_upper)) = []).
Proof.
  apply (viewer_when_truthy sample_world args_viewer_upper).
  - exact sample_float_syntax.
  - reflexivity.
Defined.

(** X5.  With the package installed under an absolute prefix that has no
    slash at its end, the viewer is started with the arguments -d and
    twice the same path: joining the share directory with [rviz_color],
    itself absolute, gives [rviz_color] back. *)
Theorem viewer_arguments w args prefix :
  float_syntax w ->
  raised (launch w args) = None ->
  get_package_prefix w "nuturtle_description" = Some prefix ->
  pystr.startswith "/" prefix = true ->
  pystr.endswith "/" prefix = false ->
  pystr.lower (use_rviz_of args) ∈ ["true"; "1"] ->
  let preset :=
    (prefix ++ "/share/nuturtle_description/config/basic_"
     ++ color_of args ++ ".rviz")%string in
  viewers (processes (launch w args))
  = [ {| package_of := "rviz2";
         executable := "rviz2";
         namespace := color_of args;
         parameters := [];
         arguments := ["-d"; preset; preset] |} ].
Proof.
  intros Hfloat Hnone Hp Habs Hend Hrviz%mem_elem_of preset.
  destruct (launch_raises_nothing w args Hfloat Hnone)
    as (prefix' & out & Hp' & _ & _ & ->).
  rewrite Hp in Hp'. injection Hp' as <-.
  simpl. rewrite viewers_selected. unfold str_to_bool. rewrite Hrviz.
  assert (prefix ≠ "") as Hne by (by intros ->).
  unfold rviz_spec. rewrite (rviz_color_of_plain prefix _ Hne Hend).
  fold preset. unfold posixpath.join. cbn [fold_left].
  rewrite join_step_absolute; [done|].
  by apply startswith_app.
Qed.

Lemma viewer_arguments_witness :
  viewers (processes (launch sample_world args_viewer_upper))
  = [ {| package_of := "rviz2";
         executable := "rviz2";
         namespace := "purple";
         parameters := [];
         arguments :=
           [ "-d";
             "/opt/ws/install/nuturtle_description/share/nuturtle_description/config/basic_purple.rviz";
             "/opt/ws/install/nuturtle_description/share/nuturtle_description/config/basic_purple.rviz" ] |} ].
Proof.
  apply (viewer_arguments sample_world args_viewer_upper sample_prefix).
  - exact sample_float_syntax.
  - reflexivity.
  - reflexivity.
  - reflexivity.
  - reflexivity.
  - apply mem_elem_of. reflexivity.
Defined.

(** ** The template command *)

(** X8.  With the package installed under a prefix that is not empty and
    has no slash at its end, the command line run for robot_description
    is xacro, a space, the prefix followed by
    /share/nuturtle_description/urdf/turtlebot3_burger.urdf.xacro, a
    space and color:= with the colour; when it succeeds the launch raises
    nothing and the state publisher gets its stdout. *)
Theorem xacro_command_line w args prefix cp :
  float_syntax w ->
  get_package_prefix w "nuturtle_description" = Some prefix ->
  prefix ≠ "" ->
  pystr.endswith "/" prefix = false ->
  color_of args ∈ color_choices ->
  subprocess_run w
    ("xacro " ++ prefix
     ++ "/share/nuturtle_description/urdf/turtlebot3_burger.urdf.xacro color:="
     ++ color_of args)%string = Some cp ->
  returncode cp = 0%Z ->
  stderr cp = "" ->
  raised (launch w args) = None
  /\ parameter "robot_description" <$> state_publishers (processes (launch w args))
     = [Some (stdout cp)].
Proof.
  intros Hfloat Hp Hne Hend Hc%mem_elem_of Hrun Hrc Herr.
  rewrite <- (xacro_command_plain prefix _ Hne Hend) in Hrun.
  rewrite (launch_installed w args prefix Hfloat Hp Hc).
  rewrite (run_command_stdout w _ cp Hrun Hrc Herr). simpl.
  split; [done|]. unfold selected, state_publishers.
  by destruct (String.eqb (use_jsp_of args) "gui"),
              (String.eqb (use_jsp_of args) "jsp"),
              (str_to_bool (use_rviz_of args)).
Qed.

Lemma xacro_command_line_witness :
  raised (launch sample_world args_red) = None
  /\ parameter "robot_description"
       <$> state_publishers (processes (launch sample_world args_red))
     = [Some xacro_output].
Proof.
  apply (xacro_command_line sample_world args_red sample_prefix
           {| returncode := 0; stdout := xacro_output; stderr := "" |}).
  - exact sample_float_syntax.
  - reflexivity.
  - discriminate.
  - reflexivity.
  - apply mem_elem_of. reflexivity.
  - reflexivity.
  - reflexivity.
  - reflexivity.
Defined.
